(** * CRUMBS: the message record, its wire codec, the serial command parser
      and the master's request/response exchange (crumbs_master_test.ino). *)

From Stdlib Require Import ZArith List Ascii String Bool Lia.
Import ListNotations.
Open Scope Z_scope.

(** ** Data model: [struct CRUMBSMessage] (CRUMBSMessage.h, lines 11-17) *)

(** A [float] is carried as its IEEE-754 binary32 bit pattern, a Z in
    [0, 2^32); a [uint8_t] as a Z in [0, 256). *)
Definition float32 := Z.

(** [float data[6]]: the six payload slots. *)
Record floats6 := mk_floats6 {
  d0 : float32; d1 : float32; d2 : float32;
  d3 : float32; d4 : float32; d5 : float32 }.

Record CRUMBSMessage := mk_msg {
  sliceID : Z;
  typeID : Z;
  commandType : Z;
  data : floats6;
  errorFlags : Z }.

(** [#define CRUMBS_MESSAGE_SIZE 28] *)
Definition CRUMBS_MESSAGE_SIZE : nat := 28.

(** [data[i]] read and [data[i] = v] write. *)
Definition data_get (d : floats6) (i : nat) : float32 :=
  match i with
  | 0%nat => d0 d | 1%nat => d1 d | 2%nat => d2 d
  | 3%nat => d3 d | 4%nat => d4 d | _ => d5 d
  end.

Definition data_set (d : floats6) (i : nat) (v : float32) : floats6 :=
  match i with
  | 0%nat => mk_floats6 v (d1 d) (d2 d) (d3 d) (d4 d) (d5 d)
  | 1%nat => mk_floats6 (d0 d) v (d2 d) (d3 d) (d4 d) (d5 d)
  | 2%nat => mk_floats6 (d0 d) (d1 d) v (d3 d) (d4 d) (d5 d)
  | 3%nat => mk_floats6 (d0 d) (d1 d) (d2 d) v (d4 d) (d5 d)
  | 4%nat => mk_floats6 (d0 d) (d1 d) (d2 d) (d3 d) v (d5 d)
  | 5%nat => mk_floats6 (d0 d) (d1 d) (d2 d) (d3 d) (d4 d) v
  | _ => d
  end.

Definition data_list (d : floats6) : list float32 :=
  [d0 d; d1 d; d2 d; d3 d; d4 d; d5 d].

Definition set_typeID (m : CRUMBSMessage) (v : Z) : CRUMBSMessage :=
  mk_msg (sliceID m) v (commandType m) (data m) (errorFlags m).
Definition set_commandType (m : CRUMBSMessage) (v : Z) : CRUMBSMessage :=
  mk_msg (sliceID m) (typeID m) v (data m) (errorFlags m).
Definition set_data (m : CRUMBSMessage) (i : nat) (v : float32) : CRUMBSMessage :=
  mk_msg (sliceID m) (typeID m) (commandType m) (data_set (data m) i v) (errorFlags m).
Definition set_errorFlags (m : CRUMBSMessage) (v : Z) : CRUMBSMessage :=
  mk_msg (sliceID m) (typeID m) (commandType m) (data m) v.

(** A value of the C struct: every [uint8_t] in range, every float a
    32-bit pattern. *)
Definition is_u8 (x : Z) : bool := (0 <=? x) && (x <? 256).
Definition is_u32 (x : Z) : bool := (0 <=? x) && (x <? 2 ^ 32).

Definition valid_message (m : CRUMBSMessage) : bool :=
  is_u8 (sliceID m) && is_u8 (typeID m) && is_u8 (commandType m)
  && forallb is_u32 (data_list (data m)) && is_u8 (errorFlags m).

(** ** The codec (CRUMBS::encodeMessage / CRUMBS::decodeMessage) *)

(** Little-endian bytes of a w-byte word. *)
Fixpoint le_bytes (n : nat) (w : Z) : list Z :=
  match n with
  | O => []
  | S n' => Z.land w 255 :: le_bytes n' (Z.shiftr w 8)
  end.

Fixpoint le_value (bs : list Z) : Z :=
  match bs with
  | [] => 0
  | b :: bs' => b + Z.shiftl (le_value bs') 8
  end.

(** Modelled from the spec: [CRUMBS::encodeMessage], which is not among the
    sources (CRUMBS.cpp); section 4.1 and 6 of the spec fix the layout:
    sliceID, typeID, commandType, the six floats (little-endian per field),
    errorFlags, with no padding. *)
Definition encodeMessage (m : CRUMBSMessage) : list Z :=
  [sliceID m; typeID m; commandType m]
  ++ flat_map (le_bytes 4) (data_list (data m))
  ++ [errorFlags m].

(** Modelled from the spec: [CRUMBS::decodeMessage], which is not among the
    sources (CRUMBS.cpp); it fails when fewer than 28 bytes are given, reads
    the fields in the encoding order and ignores bytes after the 28th. *)
Definition decode_float (buf : list Z) (off : nat) : float32 :=
  le_value (firstn 4 (skipn off buf)).

Definition decodeMessage (buf : list Z) (len : nat) : option CRUMBSMessage :=
  if (len <? CRUMBS_MESSAGE_SIZE)%nat then None
  else Some (mk_msg (nth 0 buf 0) (nth 1 buf 0) (nth 2 buf 0)
               (mk_floats6 (decode_float buf 3) (decode_float buf 7)
                  (decode_float buf 11) (decode_float buf 15)
                  (decode_float buf 19) (decode_float buf 23))
               (nth 27 buf 0)).

(** ** Arduino [String] and the C numeric conversions it calls *)

(** An Arduino [String] as its characters. *)
Definition text := list ascii.

Definition code (c : ascii) : Z := Z.of_nat (nat_of_ascii c).

(** [isspace]: space, \t, \n, \v, \f, \r. *)
Definition is_space (c : ascii) : bool :=
  (code c =? 32) || ((9 <=? code c) && (code c <=? 13)).

Definition is_digit (c : ascii) : bool := (48 <=? code c) && (code c <=? 57).
Definition digit_value (c : ascii) : Z := code c - 48.

Definition to_lower (c : ascii) : ascii :=
  if (65 <=? code c) && (code c <=? 90) then ascii_of_nat (nat_of_ascii c + 32)
  else c.

Definition hex_value (c : ascii) : option Z :=
  if is_digit c then Some (digit_value c)
  else let l := code (to_lower c) in
       if (97 <=? l) && (l <=? 102) then Some (l - 87) else None.

Fixpoint skip_spaces (s : text) : text :=
  match s with
  | c :: s' => if is_space c then skip_spaces s' else s
  | [] => []
  end.

(** [String::trim]: drop [isspace] characters at both ends. *)
Definition trim (s : text) : text := rev (skip_spaces (rev (skip_spaces s))).

(** [String::startsWith]. *)
Fixpoint starts_with (p s : text) : bool :=
  match p, s with
  | [], _ => true
  | c :: p', d :: s' => Ascii.eqb c d && starts_with p' s'
  | _ :: _, [] => false
  end.

Definition T (s : string) : text := list_ascii_of_string s.

(** An optional sign: [true] for '-'. *)
Definition take_sign (s : text) : bool * text :=
  match s with
  | c :: s' => if Ascii.eqb c "-" then (true, s')
               else if Ascii.eqb c "+" then (false, s') else (false, s)
  | [] => (false, [])
  end.

(** Scan decimal digits: the accumulated value, the number of digits read
    and the rest. *)
Fixpoint scan_digits (acc : Z) (n : nat) (s : text) : Z * nat * text :=
  match s with
  | c :: s' => if is_digit c then scan_digits (acc * 10 + digit_value c) (S n) s'
               else (acc, n, s)
  | [] => (acc, n, [])
  end.

(** [atol], called by [String::toInt]: leading white space, a sign, decimal
    digits.  avr-libc leaves overflow unspecified; the value is kept exact
    here, which changes nothing after the cast to [uint8_t]. *)
Definition atol (s : text) : Z :=
  let '(neg, r) := take_sign (skip_spaces s) in
  let '(v, _, _) := scan_digits 0 0 r in
  if neg then - v else v.

Definition toInt (s : text) : Z := atol s.

(** [(uint8_t)] of a [long]: the low eight bits. *)
Definition u8 (x : Z) : Z := Z.land x 255.

Fixpoint scan_hex (acc : Z) (s : text) : Z :=
  match s with
  | c :: s' => match hex_value c with
               | Some d => scan_hex (acc * 16 + d) s'
               | None => acc
               end
  | [] => acc
  end.

Definition LONG_MAX : Z := 2 ^ 31 - 1.
Definition LONG_MIN : Z := - 2 ^ 31.

(** [strtol(s, NULL, 16)]: white space, a sign, an optional 0x/0X, hex
    digits; out-of-range results are clamped to LONG_MIN / LONG_MAX. *)
Definition strtol16 (s : text) : Z :=
  let '(neg, r) := take_sign (skip_spaces s) in
  let r := match r with
           | z :: x :: r' => if Ascii.eqb z "0" && Ascii.eqb (to_lower x) "x"
                             then r' else r
           | _ => r
           end in
  let v := scan_hex 0 r in
  let v := if neg then - v else v in
  Z.max LONG_MIN (Z.min LONG_MAX v).

(** Round [num / den] (both positive) to the nearest integer, ties to even. *)
Definition div_round_even (num den : Z) : Z :=
  let q := num / den in
  let r := num mod den in
  if (2 * r >? den) || ((2 * r =? den) && Z.odd q) then q + 1 else q.

(** [num / den * 2^k] rounded to nearest-even. *)
Definition scaled_round (num den k : Z) : Z :=
  if 0 <=? k then div_round_even (num * 2 ^ k) den
  else div_round_even num (den * 2 ^ (- k)).

(** [num / den >= 2^e]. *)
Definition ge_pow2 (num den e : Z) : bool :=
  den * 2 ^ (Z.max 0 e) <=? num * 2 ^ (Z.max 0 (- e)).

Definition F32_INF : float32 := 2139095040.   (* 0x7F800000 *)
Definition F32_NAN : float32 := 2143289344.   (* 0x7FC00000 *)
Definition F32_SIGN : float32 := 2147483648.  (* 0x80000000 *)

(** The binary32 pattern of the positive rational [num / den], rounded to
    nearest-even: normal, subnormal, or infinity on overflow. *)
Definition f32_of_ratio (num den : Z) : float32 :=
  let e0 := Z.log2 num - Z.log2 den in
  let e := if ge_pow2 num den e0 then e0 else e0 - 1 in
  if e <? -126 then scaled_round num den 149
  else
    let q := scaled_round num den (23 - e) in
    let '(e, q) := if q =? 2 ^ 24 then (e + 1, 2 ^ 23) else (e, q) in
    if 127 <? e then F32_INF
    else (e + 127) * 2 ^ 23 + (q - 2 ^ 23).

(** [m * 10^e10] as a binary32 pattern, with its sign. *)
Definition f32_of_decimal (neg : bool) (m e10 : Z) : float32 :=
  let mag := if m =? 0 then 0
             else if 0 <=? e10 then f32_of_ratio (m * 10 ^ e10) 1
             else f32_of_ratio m (10 ^ (- e10)) in
  if neg then mag + F32_SIGN else mag.

(** The exponent part after 'e' / 'E': ignored unless it has a digit. *)
Definition scan_exponent (s : text) : Z :=
  let '(neg, r) := take_sign s in
  let '(v, n, _) := scan_digits 0 0 r in
  if (n =? 0)%nat then 0 else if neg then - v else v.

Definition starts_with_ci (p s : text) : bool := starts_with p (map to_lower s).

(** [atof], called by [String::toFloat] (AVR: [double] is binary32):
    white space, a sign, then "inf" / "nan" (any case) or decimal digits with
    an optional fraction and exponent; no digits at all gives 0.0.  The
    conversion is modelled as correctly rounded. *)
Definition atof (s : text) : float32 :=
  let '(neg, r) := take_sign (skip_spaces s) in
  if starts_with_ci (T "inf") r then (if neg then F32_INF + F32_SIGN else F32_INF)
  else if starts_with_ci (T "nan") r then F32_NAN
  else
    let '(m, n1, r1) := scan_digits 0 0 r in
    let '(m, n2, r2) :=
      match r1 with
      | c :: r1' => if Ascii.eqb c "." then scan_digits m 0 r1' else (m, 0%nat, r1)
      | [] => (m, 0%nat, [])
      end in
    if (n1 + n2 =? 0)%nat then 0
    else
      let e := match r2 with
               | c :: r2' => if Ascii.eqb (to_lower c) "e" then scan_exponent r2' else 0
               | [] => 0
               end in
      f32_of_decimal neg m (e - Z.of_nat n2).

Definition toFloat (s : text) : float32 := atof s.

(** Text with no number at its start, for [atol]: after white space and a
    sign, no decimal digit. *)
Definition non_numeric_int (s : text) : bool :=
  match snd (take_sign (skip_spaces s)) with
  | c :: _ => negb (is_digit c)
  | [] => true
  end.

(** Text with no number at its start, for [atof]: after white space and a
    sign, no digit, no '.' followed by a digit, no "inf" and no "nan". *)
Definition non_numeric_float (s : text) : bool :=
  let r := snd (take_sign (skip_spaces s)) in
  negb (starts_with_ci (T "inf") r) && negb (starts_with_ci (T "nan") r) &&
  match r with
  | c :: r' => negb (is_digit c) &&
               negb (Ascii.eqb c "." && match r' with d :: _ => is_digit d | [] => false end)
  | [] => true
  end.

(** ** [parseSerialInput] (crumbs_master_test.ino, lines 183-270) *)

(** [input[i]]. *)
Definition char_at (s : text) (i : nat) : ascii := nth i s "000"%char.

(** [String::substring(left, right)] for [left <= right <= length]. *)
Definition substring (s : text) (left right : nat) : text :=
  firstn (right - left) (skipn left s).

(** The loop's local state: [fieldCount], [lastComma] and the two
    reference parameters [targetAddress] and [message]. *)
Record PState := mk_pstate {
  fieldCount : nat;
  lastComma : nat;
  targetAddress : Z;
  message : CRUMBSMessage }.

(** The [switch (fieldCount)] on one field's text. *)
Definition assign_field (fc : nat) (value : text) (addr : Z) (m : CRUMBSMessage)
  : Z * CRUMBSMessage :=
  match fc with
  | 0 => (u8 (toInt value), m)
  | 1 => (addr, set_typeID m (u8 (toInt value)))
  | 2 => (addr, set_commandType m (u8 (toInt value)))
  | 3 => (addr, set_data m 0 (toFloat value))
  | 4 => (addr, set_data m 1 (toFloat value))
  | 5 => (addr, set_data m 2 (toFloat value))
  | 6 => (addr, set_data m 3 (toFloat value))
  | 7 => (addr, set_data m 4 (toFloat value))
  | 8 => (addr, set_data m 5 (toFloat value))
  | 9 => (addr, set_errorFlags m (u8 (toInt value)))
  | _ => (addr, m)
  end%nat.

(** One iteration of [for (int i = 0; i <= input.length(); i++)]. *)
Definition parse_step (input : text) (st : PState) (i : nat) : PState :=
  if Nat.eqb i (List.length input) || Ascii.eqb (char_at input i) "," then
    let value := substring input (lastComma st) i in
    let '(addr, m) := assign_field (fieldCount st) value (targetAddress st) (message st) in
    mk_pstate (S (fieldCount st)) (S i) addr m
  else st.

Definition parse_loop (input : text) (st : PState) : PState :=
  fold_left (parse_step input) (seq 0 (S (List.length input))) st.

(** The initialisation before the loop: typeID, commandType, the six data
    slots and errorFlags are set to zero. *)
Definition reset_message (m : CRUMBSMessage) : CRUMBSMessage :=
  let m := set_commandType (set_typeID m 0) 0 in
  let m := fold_left (fun m i => set_data m i 0) (seq 0 6) m in
  set_errorFlags m 0.

(** [parseSerialInput(input, targetAddress, message)]: the returned flag and
    the final values of the two reference parameters. *)
Definition parseSerialInput (input : text) (targetAddress0 : Z) (message0 : CRUMBSMessage)
  : bool * Z * CRUMBSMessage :=
  let st := parse_loop input (mk_pstate 0 0 targetAddress0 (reset_message message0)) in
  if (fieldCount st <? 4)%nat then (false, targetAddress st, message st)
  else (true, targetAddress st, message st).

Definition parse_ok (r : bool * Z * CRUMBSMessage) : bool := fst (fst r).
Definition parse_address (r : bool * Z * CRUMBSMessage) : Z := snd (fst r).
Definition parse_message (r : bool * Z * CRUMBSMessage) : CRUMBSMessage := snd r.

(** Field [j] of the grammar [address,typeID,commandType,data0..data5,errorFlags]
    in a parse result. *)
Definition result_field (j : nat) (addr : Z) (m : CRUMBSMessage) : Z :=
  match j with
  | 0 => addr
  | 1 => typeID m
  | 2 => commandType m
  | 9 => errorFlags m
  | _ => data_get (data m) (j - 3)
  end%nat.

Definition is_int_field (j : nat) : bool :=
  (Nat.eqb j 0 || Nat.eqb j 1 || Nat.eqb j 2 || Nat.eqb j 9).

(** The comma-delimited segments of a line, empty ones included. *)
Fixpoint split_from (cur : text) (s : text) : list text :=
  match s with
  | [] => [cur]
  | c :: s' => if Ascii.eqb c "," then cur :: split_from [] s'
               else split_from (cur ++ [c]) s'
  end.

Definition fields (s : text) : list text := split_from [] s.

Definition comma_count (s : text) : nat :=
  List.length (filter (fun c => Ascii.eqb c ",") s).

(** ** [handleSerialInput] (crumbs_master_test.ino, lines 80-172) *)

(** What the master does on the bus, in order. *)
Inductive event :=
  | EvRequestFrom (address quantity : Z)       (* Wire.requestFrom *)
  | EvDelay (ms : Z)                           (* delay *)
  | EvRead (b : Z)                             (* Wire.read *)
  | EvDecode (buf : list Z) (len : nat)        (* crumbsMaster.decodeMessage *)
  | EvSend (address : Z) (m : CRUMBSMessage).  (* crumbsMaster.sendMessage *)

Inductive outcome :=
  | Response (address : Z) (decoded : option CRUMBSMessage)
  | Sent
  | ParseFailed.

(** [buf[i] = b] on the C array (no write outside it). *)
Fixpoint upd (buf : list Z) (i : nat) (b : Z) : list Z :=
  match buf, i with
  | [], _ => []
  | _ :: buf', O => b :: buf'
  | x :: buf', S i' => x :: upd buf' i' b
  end.

(** [while (Wire.available() && index < CRUMBS_MESSAGE_SIZE)
       responseBuffer[index++] = Wire.read();]
    [rx] holds the bytes the Wire receive buffer still has. *)
Fixpoint read_loop (rx : list Z) (buf : list Z) (index : nat) : list Z * nat * list event :=
  match rx with
  | [] => (buf, index, [])
  | b :: rx' =>
      if (index <? CRUMBS_MESSAGE_SIZE)%nat then
        let '(buf', n, evs) := read_loop rx' (upd buf index b) (S index) in
        (buf', n, EvRead b :: evs)
      else (buf, index, [])
  end.

(** The address of a [request=] line: hexadecimal after 0x / 0X, decimal
    ([String::toInt]) otherwise, cast to [uint8_t]. *)
Definition request_address (addressString : text) : Z :=
  if starts_with (T "0x") addressString || starts_with (T "0X") addressString
  then u8 (strtol16 addressString)
  else u8 (toInt addressString).

(** One received line.  [wire] gives the bytes the bus delivers for
    [Wire.requestFrom(address, quantity)]; [buf0], [addr0] and [msg0] are the
    uninitialised locals [responseBuffer], [targetAddress] and [message]. *)
Definition handleSerialInput (wire : Z -> Z -> list Z) (buf0 : list Z) (addr0 : Z)
    (msg0 : CRUMBSMessage) (line : text) : list event * outcome :=
  let input := trim line in
  if starts_with (T "request=") input then
    let addressString := trim (skipn 8 input) in
    let target := request_address addressString in
    let numBytes := Z.of_nat CRUMBS_MESSAGE_SIZE in
    let '(buf, index, reads) := read_loop (wire target numBytes) buf0 0 in
    ([EvRequestFrom target numBytes; EvDelay 50] ++ reads ++ [EvDecode buf index],
     Response target (decodeMessage buf index))
  else
    let '(ok, addr, m) := parseSerialInput input addr0 msg0 in
    if ok then ([EvSend addr m], Sent) else ([], ParseFailed).

Definition is_send (e : event) : bool :=
  match e with EvSend _ _ => true | _ => false end.
Definition is_request (e : event) : bool :=
  match e with EvRequestFrom _ _ => true | _ => false end.

(** Bytes written from position [i] on, one after the other. *)
Fixpoint write_from (buf : list Z) (i : nat) (l : list Z) : list Z :=
  match l with
  | [] => buf
  | b :: l' => write_from (upd buf i b) (S i) l'
  end.

(** Views used by the proofs: the loop state without [lastComma], and the
    [switch] applied to one field of a list of fields. *)
Definition proj (st : PState) : nat * Z * CRUMBSMessage :=
  (fieldCount st, targetAddress st, message st).

Definition field_step (st : nat * Z * CRUMBSMessage) (value : text) : nat * Z * CRUMBSMessage :=
  let '(fc, addr, m) := st in
  let '(addr', m') := assign_field fc value addr m in
  (S fc, addr', m').

(** What field [j] holds after its text [v] was parsed. *)
Definition field_conv (j : nat) (v : text) : Z :=
  if is_int_field j then u8 (toInt v) else toFloat v.

(** * Proofs *)

(** ** The codec *)

Lemma le_value_le_bytes (n : nat) (w : Z) :
  le_value (le_bytes n w) = w mod 2 ^ (8 * Z.of_nat n).
Proof.
  revert w; induction n as [|n IH]; intro w.
  - simpl. now rewrite Z.mod_1_r.
  - cbn [le_bytes le_value]. rewrite IH.
    change 255 with (Z.ones 8).
    rewrite Z.land_ones, Z.shiftr_div_pow2, Z.shiftl_mul_pow2 by lia.
    replace (8 * Z.of_nat (S n)) with (8 + 8 * Z.of_nat n) by lia.
    rewrite Z.pow_add_r by lia.
    rewrite Z.rem_mul_r by (try apply Z.pow_pos_nonneg; lia).
    ring.
Qed.

Lemma le_bytes_4 (w : Z) :
  0 <= w < 2 ^ 32 ->
  exists b0 b1 b2 b3, le_bytes 4 w = [b0; b1; b2; b3] /\ le_value [b0; b1; b2; b3] = w.
Proof.
  intros Hw. pose proof (le_value_le_bytes 4 w) as H.
  cbn [le_bytes] in H |- *.
  do 4 eexists. split; [reflexivity|].
  rewrite H. apply Z.mod_small. simpl. lia.
Qed.

Lemma is_u8_range (x : Z) : is_u8 x = true -> 0 <= x < 256.
Proof. unfold is_u8. rewrite andb_true_iff, Z.leb_le, Z.ltb_lt. lia. Qed.

Lemma is_u32_range (x : Z) : is_u32 x = true -> 0 <= x < 2 ^ 32.
Proof. unfold is_u32. rewrite andb_true_iff, Z.leb_le, Z.ltb_lt. lia. Qed.

Ltac split_bools :=
  repeat match goal with
  | H : (_ && _)%bool = true |- _ => apply andb_true_iff in H; destruct H
  end.

Lemma encode_length (m : CRUMBSMessage) :
  List.length (encodeMessage m) = CRUMBS_MESSAGE_SIZE.
Proof. destruct m as [s t c [] e]. reflexivity. Qed.

(** C1: for every message value, decoding its 28-byte encoding (with
    length 28) succeeds and gives back the same message, every float bit for
    bit, and the encoding is 28 bytes long. *)
Theorem roundtrip_decode_encode (m : CRUMBSMessage) :
  valid_message m = true ->
  decodeMessage (encodeMessage m) 28 = Some m
  /\ List.length (encodeMessage m) = 28%nat.
Proof.
  intros Hv. split; [|apply encode_length].
  destruct m as [s t c [f0 f1 f2 f3 f4 f5] e].
  unfold valid_message, data_list in Hv.
  cbn [forallb data sliceID typeID commandType errorFlags d0 d1 d2 d3 d4 d5] in Hv.
  rewrite andb_true_r in Hv. split_bools.
  repeat match goal with
  | H : is_u32 ?f = true |- _ =>
      apply is_u32_range in H;
      destruct (le_bytes_4 f H) as (?b0 & ?b1 & ?b2 & ?b3 & ?E & ?V); clear H
  end.
  unfold encodeMessage. cbn [data_list flat_map data sliceID typeID commandType errorFlags d0 d1 d2 d3 d4 d5 app].
  repeat match goal with E : le_bytes 4 _ = _ |- _ => rewrite E; clear E end.
  unfold decodeMessage, decode_float. cbn -[le_value].
  congruence.
Qed.

(** ** The parser loop reads the comma-delimited fields in order *)

Lemma skipn_nth_cons {A} (l : list A) (i : nat) (d : A) :
  (i < List.length l)%nat -> skipn i l = nth i l d :: skipn (S i) l.
Proof.
  revert i; induction l as [|x l IH]; intros i Hi; simpl in Hi; [lia|].
  destruct i as [|i]; [reflexivity|]. simpl. apply IH. lia.
Qed.

Lemma firstn_snoc {A} (l : list A) (n : nat) (d : A) :
  (n < List.length l)%nat -> firstn (S n) l = firstn n l ++ [nth n l d].
Proof.
  revert n; induction l as [|x l IH]; intros n Hn; simpl in Hn; [lia|].
  destruct n as [|n]; [reflexivity|].
  change (firstn (S (S n)) (x :: l)) with (x :: firstn (S n) l).
  rewrite IH by lia. reflexivity.
Qed.

Lemma substring_snoc (s : text) (lc i : nat) :
  (lc <= i < List.length s)%nat ->
  substring s lc (S i) = substring s lc i ++ [char_at s i].
Proof.
  intros H. unfold substring, char_at.
  replace (S i - lc)%nat with (S (i - lc)) by lia.
  rewrite (firstn_snoc _ _ "000"%char) by (rewrite length_skipn; lia).
  rewrite nth_skipn. do 3 f_equal. lia.
Qed.

Lemma parse_loop_from (s : text) (k i : nat) (st : PState) :
  (i + k = List.length s)%nat -> (lastComma st <= i)%nat ->
  proj (fold_left (parse_step s) (seq i (S k)) st)
  = fold_left field_step (split_from (substring s (lastComma st) i) (skipn i s)) (proj st).
Proof.
  revert i st; induction k as [|k IH]; intros i st Hk Hlc.
  - rewrite Nat.add_0_r in Hk. subst i.
    rewrite skipn_all. simpl. unfold parse_step.
    rewrite Nat.eqb_refl. simpl.
    destruct (assign_field _ _ _ _) as [a' m']. reflexivity.
  - change (fold_left (parse_step s) (seq i (S (S k))) st)
      with (fold_left (parse_step s) (seq (S i) (S k)) (parse_step s st i)).
    rewrite (skipn_nth_cons s i "000"%char) by lia.
    assert (E : parse_step s st i =
      if Ascii.eqb (char_at s i) "," then
        let '(addr, m) := assign_field (fieldCount st) (substring s (lastComma st) i)
                            (targetAddress st) (message st) in
        mk_pstate (S (fieldCount st)) (S i) addr m
      else st).
    { unfold parse_step.
      replace (Nat.eqb i (List.length s)) with false by (symmetry; apply Nat.eqb_neq; lia).
      reflexivity. }
    rewrite E. fold (char_at s i). cbn [split_from].
    destruct (Ascii.eqb (char_at s i) ",") eqn:Hc.
    + destruct (assign_field _ _ _ _) as [a' m'] eqn:Ha.
      rewrite IH by (simpl; lia).
      cbn [fold_left]. f_equal.
      * unfold substring. now rewrite Nat.sub_diag.
      * unfold proj, field_step. cbn [fieldCount lastComma targetAddress message].
        now rewrite Ha.
    + rewrite IH by lia. rewrite substring_snoc by lia. reflexivity.
Qed.

Lemma parse_fields (s : text) (a : Z) (m : CRUMBSMessage) :
  parseSerialInput s a m =
  let '(fc, a', m') := fold_left field_step (fields s) (0%nat, a, reset_message m) in
  (negb (fc <? 4)%nat, a', m').
Proof.
  unfold parseSerialInput, parse_loop.
  pose proof (parse_loop_from s (List.length s) 0 (mk_pstate 0 0 a (reset_message m))
                eq_refl (le_n 0)) as H.
  cbn [lastComma] in H. change (substring s 0 0) with (@nil ascii) in H.
  change (skipn 0 s) with s in H.
  unfold fields. unfold proj at 2 in H. cbn [fieldCount targetAddress message] in H.
  rewrite <- H. unfold proj.
  destruct (fold_left _ _ _) as [fc lc a' m']. cbn [fieldCount targetAddress message].
  destruct (fc <? 4)%nat; reflexivity.
Qed.

Lemma fold_field_count (l : list text) (fc : nat) (a : Z) (m : CRUMBSMessage) :
  fst (fst (fold_left field_step l (fc, a, m))) = (fc + List.length l)%nat.
Proof.
  revert fc a m; induction l as [|v l IH]; intros fc a m; simpl; [lia|].
  destruct (assign_field fc v a m) as [a' m']. rewrite IH. lia.
Qed.

Lemma split_from_length (s cur : text) :
  List.length (split_from cur s) = S (comma_count s).
Proof.
  unfold comma_count. revert cur; induction s as [|c s IH]; intro cur; [reflexivity|].
  simpl. destruct (Ascii.eqb c ","); simpl; rewrite IH; reflexivity.
Qed.

Lemma fields_length (s : text) : List.length (fields s) = S (comma_count s).
Proof. apply split_from_length. Qed.

Lemma parse_ok_count (s : text) (a : Z) (m : CRUMBSMessage) :
  parse_ok (parseSerialInput s a m) = negb (S (comma_count s) <? 4)%nat.
Proof.
  rewrite parse_fields.
  pose proof (fold_field_count (fields s) 0 a (reset_message m)) as H.
  destruct (fold_left _ _ _) as [[fc a'] m']. simpl in H |- *.
  rewrite H, fields_length. reflexivity.
Qed.

Ltac nat_cases n k :=
  match k with
  | O => idtac
  | S ?k' => destruct n as [|n]; [|nat_cases n k']
  end.

Lemma assign_field_result (fc : nat) (v : text) (a : Z) (m : CRUMBSMessage) (j : nat) :
  (j <= 9)%nat ->
  let '(a', m') := assign_field fc v a m in
  result_field j a' m' = if Nat.eqb j fc then field_conv j v else result_field j a m.
Proof.
  intros Hj. destruct m as [s t c [f0 f1 f2 f3 f4 f5] e].
  nat_cases j 10%nat; [| | | | | | | | | | lia];
  nat_cases fc 10%nat; reflexivity.
Qed.

Lemma assign_field_sliceID (fc : nat) (v : text) (a : Z) (m : CRUMBSMessage) :
  sliceID (snd (assign_field fc v a m)) = sliceID m.
Proof. nat_cases fc 10%nat; reflexivity. Qed.

Lemma fold_field_result (l : list text) (fc : nat) (a : Z) (m : CRUMBSMessage) (j : nat) :
  (j <= 9)%nat ->
  let '(_, a', m') := fold_left field_step l (fc, a, m) in
  result_field j a' m' =
  if (fc <=? j)%nat && (j <? fc + List.length l)%nat
  then field_conv j (nth (j - fc) l []) else result_field j a m.
Proof.
  intros Hj. revert fc a m; induction l as [|v l IH]; intros fc a m.
  - simpl. replace ((fc <=? j) && (j <? fc + 0))%nat with false; [reflexivity|].
    symmetry. apply andb_false_iff.
    destruct (Nat.leb_spec fc j); [right; apply Nat.ltb_ge; lia | left; reflexivity].
  - cbn [fold_left field_step].
    pose proof (assign_field_result fc v a m j Hj) as Ha.
    destruct (assign_field fc v a m) as [a1 m1].
    specialize (IH (S fc) a1 m1).
    destruct (fold_left field_step l (S fc, a1, m1)) as [[fc' a'] m'].
    rewrite IH, Ha. cbn [List.length].
    destruct (Nat.compare_spec j fc) as [E|L|G].
    + subst j. rewrite Nat.leb_refl, Nat.sub_diag, Nat.eqb_refl.
      replace (S fc <=? fc)%nat with false by (symmetry; apply Nat.leb_gt; lia).
      replace (fc <? fc + S (List.length l))%nat with true by (symmetry; apply Nat.ltb_lt; lia).
      reflexivity.
    + replace (S fc <=? j)%nat with false by (symmetry; apply Nat.leb_gt; lia).
      replace (fc <=? j)%nat with false by (symmetry; apply Nat.leb_gt; lia).
      replace (Nat.eqb j fc) with false by (symmetry; apply Nat.eqb_neq; lia).
      reflexivity.
    + replace (S fc <=? j)%nat with true by (symmetry; apply Nat.leb_le; lia).
      replace (fc <=? j)%nat with true by (symmetry; apply Nat.leb_le; lia).
      replace (Nat.eqb j fc) with false by (symmetry; apply Nat.eqb_neq; lia).
      replace (j - fc)%nat with (S (j - S fc)) by lia.
      replace (j <? S fc + List.length l)%nat with (j <? fc + S (List.length l))%nat
        by (f_equal; lia).
      reflexivity.
Qed.

Lemma fold_field_sliceID (l : list text) (fc : nat) (a : Z) (m : CRUMBSMessage) :
  sliceID (snd (fold_left field_step l (fc, a, m))) = sliceID m.
Proof.
  revert fc a m; induction l as [|v l IH]; intros fc a m; [reflexivity|].
  cbn [fold_left field_step].
  pose proof (assign_field_sliceID fc v a m) as Hs.
  destruct (assign_field fc v a m) as [a1 m1]. simpl in Hs. rewrite IH. exact Hs.
Qed.

Lemma reset_message_fields (a : Z) (m : CRUMBSMessage) (j : nat) :
  (1 <= j <= 9)%nat -> result_field j a (reset_message m) = 0.
Proof.
  intros Hj. destruct m as [s t c [f0 f1 f2 f3 f4 f5] e].
  nat_cases j 10%nat; try lia; reflexivity.
Qed.

Lemma reset_message_sliceID (m : CRUMBSMessage) : sliceID (reset_message m) = sliceID m.
Proof. destruct m as [s t c [] e]. reflexivity. Qed.

(** Field [j] of the result of [parseSerialInput]: the converted text of
    the [j]-th comma-delimited field when the line has one, otherwise the
    value set before the loop. *)
Lemma parse_result_field (s : text) (a : Z) (m : CRUMBSMessage) (j : nat) :
  (j <= 9)%nat ->
  let r := parseSerialInput s a m in
  result_field j (parse_address r) (parse_message r) =
  match nth_error (fields s) j with
  | Some v => field_conv j v
  | None => result_field j a (reset_message m)
  end.
Proof.
  intros Hj. cbn zeta. rewrite parse_fields.
  pose proof (fold_field_result (fields s) 0 a (reset_message m) j Hj) as H.
  destruct (fold_left _ _ _) as [[fc a'] m'].
  unfold parse_address, parse_message. cbn [fst snd]. rewrite H.
  rewrite Nat.sub_0_r. cbn [Nat.leb andb Nat.add].
  destruct (Nat.ltb_spec j (List.length (fields s))) as [L|L].
  - rewrite (nth_error_nth' (fields s) (@nil ascii) L). reflexivity.
  - rewrite (proj2 (nth_error_None _ _) L). reflexivity.
Qed.

(** ** The numeric conversions on text with no number *)

Lemma atol_non_numeric (v : text) : non_numeric_int v = true -> atol v = 0.
Proof.
  unfold non_numeric_int, atol.
  destruct (take_sign (skip_spaces v)) as [neg [|c r]]; simpl; intros H.
  - destruct neg; reflexivity.
  - apply negb_true_iff in H. rewrite H. destruct neg; reflexivity.
Qed.

Lemma atof_non_numeric (v : text) : non_numeric_float v = true -> atof v = 0.
Proof.
  unfold non_numeric_float, atof.
  destruct (take_sign (skip_spaces v)) as [neg r]. cbn [snd]. intros H.
  apply andb_true_iff in H as [H Hr]. apply andb_true_iff in H as [Hi Hn].
  apply negb_true_iff in Hi, Hn. rewrite Hi, Hn.
  destruct r as [|c r]; [reflexivity|].
  apply andb_true_iff in Hr as [Hd Hdot]. apply negb_true_iff in Hd, Hdot.
  simpl. rewrite Hd.
  destruct (Ascii.eqb c ".") eqn:Hc; [|reflexivity].
  destruct r as [|d r]; [reflexivity|].
  simpl in Hdot. cbn [scan_digits]. rewrite Hdot. reflexivity.
Qed.

(** ** Fields after the tenth *)

Lemma split_from_app (pre rest cur : text) :
  split_from cur (pre ++ ","%char :: rest) = split_from cur pre ++ split_from [] rest.
Proof.
  revert cur; induction pre as [|c pre IH]; intro cur; [reflexivity|].
  simpl. destruct (Ascii.eqb c ","); simpl; rewrite IH; reflexivity.
Qed.

Lemma fold_field_beyond (l : list text) (fc : nat) (a : Z) (m : CRUMBSMessage) :
  (10 <= fc)%nat -> fold_left field_step l (fc, a, m) = ((fc + List.length l)%nat, a, m).
Proof.
  revert fc; induction l as [|v l IH]; intros fc Hfc; simpl; [f_equal; f_equal; lia|].
  replace (assign_field fc v a m) with (a, m)
    by (do 10 (destruct fc as [|fc]; [lia|]); reflexivity).
  rewrite IH by lia. f_equal. f_equal. lia.
Qed.

(** ** Claims about [parseSerialInput] *)

(** C2 (the defect): [parseSerialInput] resets typeID, commandType, the six
    data slots and errorFlags, but never sliceID: the returned message keeps
    whatever sliceID the [message] argument held, which in
    [handleSerialInput] is an uninitialised local.  On "8,1,1,75.0" with a
    previous sliceID of 7 the parsed message has sliceID 7. *)
Theorem parse_keeps_sliceID (s : text) (a : Z) (m : CRUMBSMessage) :
  sliceID (parse_message (parseSerialInput s a m)) = sliceID m
  /\ sliceID (parse_message (parseSerialInput (T "8,1,1,75.0"%string) 0
                (mk_msg 7 0 0 (mk_floats6 0 0 0 0 0 0) 0))) = 7.
Proof.
  split; [|vm_compute; reflexivity].
  rewrite parse_fields.
  pose proof (fold_field_sliceID (fields s) 0 a (reset_message m)) as H.
  destruct (fold_left _ _ _) as [[fc a'] m']. simpl in H |- *.
  rewrite H. apply reset_message_sliceID.
Qed.

(** C4: [parseSerialInput] fails exactly when the line has fewer than four
    comma-delimited fields (fewer than three commas), whatever the text of
    the fields; otherwise it succeeds. *)
Theorem parse_fails_iff_few_fields (s : text) (a : Z) (m : CRUMBSMessage) :
  parse_ok (parseSerialInput s a m) = false <-> (S (comma_count s) < 4)%nat.
Proof.
  rewrite parse_ok_count, negb_false_iff. apply Nat.ltb_lt.
Qed.

(** C7: on a line with at least four fields, [parseSerialInput] succeeds,
    and every integer field (address, typeID, commandType, errorFlags) whose
    text has no number reads as 0 after the cast to [uint8_t], and every
    float field (data0..data5) whose text has no number reads as 0.0; so
    "8,1,1,abc,2.0,3.0,4.0,5.0,6.0,0" succeeds with data0 = 0.0. *)
Theorem parse_non_numeric_fields_zero (s : text) (a : Z) (m : CRUMBSMessage) :
  (4 <= S (comma_count s))%nat ->
  parse_ok (parseSerialInput s a m) = true
  /\ (forall j v, (j <= 9)%nat -> nth_error (fields s) j = Some v ->
        let r := parseSerialInput s a m in
        (is_int_field j = true -> non_numeric_int v = true ->
         result_field j (parse_address r) (parse_message r) = 0)
        /\ (is_int_field j = false -> non_numeric_float v = true ->
            result_field j (parse_address r) (parse_message r) = 0))
  /\ (let r := parseSerialInput (T "8,1,1,abc,2.0,3.0,4.0,5.0,6.0,0"%string) a m in
      parse_ok r = true /\ d0 (data (parse_message r)) = 0).
Proof.
  intros Hn. split; [|split].
  - rewrite parse_ok_count. apply negb_true_iff, Nat.ltb_ge. exact Hn.
  - intros j v Hj Hv. cbn zeta.
    rewrite (parse_result_field s a m j Hj), Hv. unfold field_conv.
    split; intros Hk Hnn; rewrite Hk.
    + unfold toInt. rewrite (atol_non_numeric v Hnn). reflexivity.
    + unfold toFloat. exact (atof_non_numeric v Hnn).
  - destruct m as [? ? ? [] ?]. vm_compute. split; reflexivity.
Qed.

(** C8: on a line giving only the first k fields, 4 <= k <= 9,
    [parseSerialInput] succeeds and every omitted field (index k to 9)
    of the result is 0 / 0.0; "8,1,1,75.0" gives address 8, typeID 1,
    commandType 1, data0 = 75.0 (bits 0x42960000), data1..5 = 0.0,
    errorFlags 0 and success. *)
Theorem parse_missing_fields_zero (s : text) (a : Z) (m : CRUMBSMessage) :
  (4 <= S (comma_count s) <= 9)%nat ->
  parse_ok (parseSerialInput s a m) = true
  /\ (forall j, (S (comma_count s) <= j <= 9)%nat ->
        let r := parseSerialInput s a m in
        result_field j (parse_address r) (parse_message r) = 0)
  /\ parseSerialInput (T "8,1,1,75.0"%string) a m
     = (true, 8, mk_msg (sliceID m) 1 1 (mk_floats6 1117126656 0 0 0 0 0) 0).
Proof.
  intros Hn. split; [|split].
  - rewrite parse_ok_count. apply negb_true_iff, Nat.ltb_ge. lia.
  - intros j Hj. cbn zeta.
    rewrite (parse_result_field s a m j ltac:(lia)).
    replace (nth_error (fields s) j) with (@None text)
      by (symmetry; apply nth_error_None; rewrite fields_length; lia).
    apply reset_message_fields. lia.
  - destruct m as [? ? ? [] ?]. vm_compute. reflexivity.
Qed.

(** C9: fields after the tenth are ignored: a line made of ten fields
    ([pre], nine commas) followed by a comma and anything parses exactly
    like the ten fields alone (same flag, address and message). *)
Theorem parse_ignores_after_tenth (pre rest : text) (a : Z) (m : CRUMBSMessage) :
  comma_count pre = 9%nat ->
  parseSerialInput (pre ++ ","%char :: rest) a m = parseSerialInput pre a m.
Proof.
  intros Hc. rewrite !parse_fields. unfold fields.
  rewrite split_from_app, fold_left_app.
  pose proof (fold_field_count (split_from [] pre) 0 a (reset_message m)) as H.
  rewrite split_from_length, Hc in H.
  destruct (fold_left field_step (split_from [] pre) _) as [[fc a'] m'].
  simpl in H. subst fc.
  rewrite fold_field_beyond by lia. reflexivity.
Qed.

(** C10 (the defect of C2 seen on ",,,"): the four empty fields count as
    four fields, so the line parses successfully to address 0 with typeID,
    commandType, data and errorFlags all 0, but sliceID is whatever the
    [message] argument held before the call. *)
Theorem parse_empty_fields (a : Z) (m : CRUMBSMessage) :
  parseSerialInput (T ",,,"%string) a m
  = (true, 0, mk_msg (sliceID m) 0 0 (mk_floats6 0 0 0 0 0 0) 0)
  /\ parseSerialInput (T ",,,"%string) a (mk_msg 7 0 0 (mk_floats6 0 0 0 0 0 0) 0)
     <> (true, 0, mk_msg 0 0 0 (mk_floats6 0 0 0 0 0 0) 0).
Proof.
  split.
  - destruct m as [? ? ? [] ?]. vm_compute. reflexivity.
  - vm_compute. congruence.
Qed.

(** Witnesses. *)

Lemma parse_non_numeric_fields_zero_witness :
  (4 <= S (comma_count (T "8,1,1,abc,2.0,3.0,4.0,5.0,6.0,0"%string)))%nat
  /\ parse_ok (parseSerialInput (T "8,1,1,abc,2.0,3.0,4.0,5.0,6.0,0"%string) 0
                (mk_msg 0 0 0 (mk_floats6 0 0 0 0 0 0) 0)) = true.
Proof.
  assert (H : (4 <= S (comma_count (T "8,1,1,abc,2.0,3.0,4.0,5.0,6.0,0"%string)))%nat)
    by (vm_compute; lia).
  split; [exact H|].
  exact (proj1 (parse_non_numeric_fields_zero _ 0 (mk_msg 0 0 0 (mk_floats6 0 0 0 0 0 0) 0) H)).
Defined.

Lemma parse_missing_fields_zero_witness :
  (4 <= S (comma_count (T "8,1,1,75.0"%string)) <= 9)%nat
  /\ parse_ok (parseSerialInput (T "8,1,1,75.0"%string) 0
                (mk_msg 0 0 0 (mk_floats6 0 0 0 0 0 0) 0)) = true.
Proof.
  assert (H : (4 <= S (comma_count (T "8,1,1,75.0"%string)) <= 9)%nat)
    by (vm_compute; lia).
  split; [exact H|].
  exact (proj1 (parse_missing_fields_zero _ 0 (mk_msg 0 0 0 (mk_floats6 0 0 0 0 0 0) 0) H)).
Defined.

Lemma parse_ignores_after_tenth_witness :
  comma_count (T "8,1,1,1.0,2.0,3.0,4.0,5.0,6.0,0"%string) = 9%nat
  /\ parseSerialInput (T "8,1,1,1.0,2.0,3.0,4.0,5.0,6.0,0"%string ++ ","%char :: T "99,x"%string) 0
       (mk_msg 0 0 0 (mk_floats6 0 0 0 0 0 0) 0)
     = parseSerialInput (T "8,1,1,1.0,2.0,3.0,4.0,5.0,6.0,0"%string) 0
         (mk_msg 0 0 0 (mk_floats6 0 0 0 0 0 0) 0).
Proof.
  assert (H : comma_count (T "8,1,1,1.0,2.0,3.0,4.0,5.0,6.0,0"%string) = 9%nat)
    by reflexivity.
  split; [exact H|].
  exact (parse_ignores_after_tenth _ _ 0 (mk_msg 0 0 0 (mk_floats6 0 0 0 0 0 0) 0) H).
Defined.

(** ** The request path of [handleSerialInput] *)

Lemma upd_split (buf : list Z) (i : nat) (b : Z) :
  (i < List.length buf)%nat -> upd buf i b = firstn i buf ++ b :: skipn (S i) buf.
Proof.
  revert i; induction buf as [|x buf IH]; intros i Hi; simpl in Hi; [lia|].
  destruct i as [|i]; [reflexivity|]. simpl. rewrite IH by lia. reflexivity.
Qed.

Lemma upd_length (buf : list Z) (i : nat) (b : Z) :
  List.length (upd buf i b) = List.length buf.
Proof.
  revert i; induction buf as [|x buf IH]; intros [|i]; simpl; auto.
Qed.

Lemma write_from_spec (buf : list Z) (i : nat) (l : list Z) :
  (i + List.length l <= List.length buf)%nat ->
  write_from buf i l = firstn i buf ++ l ++ skipn (i + List.length l) buf.
Proof.
  revert buf i; induction l as [|b l IH]; intros buf i Hl; simpl in Hl |- *.
  - rewrite Nat.add_0_r, firstn_skipn. reflexivity.
  - rewrite IH by (rewrite upd_length; lia).
    rewrite upd_split by lia.
    assert (LA : List.length (firstn i buf) = i) by (rewrite length_firstn; lia).
    rewrite firstn_app, skipn_app, LA.
    rewrite (firstn_all2 (firstn i buf)) by lia. rewrite (skipn_all2 (firstn i buf)) by lia.
    replace (S i - i)%nat with 1%nat by lia.
    replace (S i + List.length l - i)%nat with (S (List.length l)) by lia.
    replace (skipn (S (List.length l)) (b :: skipn (S i) buf))
      with (skipn (List.length l) (skipn (S i) buf)) by reflexivity.
    replace (firstn 1 (b :: skipn (S i) buf)) with [b] by reflexivity.
    rewrite skipn_skipn, <- app_assoc. cbn [app].
    replace (List.length l + S i)%nat with (i + S (List.length l))%nat by lia. reflexivity.
Qed.

Lemma read_loop_spec (rx buf : list Z) (i : nat) :
  (i <= 28)%nat ->
  read_loop rx buf i =
  (write_from buf i (firstn (28 - i) rx),
   (i + List.length (firstn (28 - i) rx))%nat,
   map EvRead (firstn (28 - i) rx)).
Proof.
  revert buf i; induction rx as [|b rx IH]; intros buf i Hi.
  - rewrite firstn_nil. cbn [read_loop write_from map List.length].
    rewrite Nat.add_0_r. reflexivity.
  - cbn [read_loop]. destruct (Nat.ltb_spec i CRUMBS_MESSAGE_SIZE) as [L|L];
      unfold CRUMBS_MESSAGE_SIZE in L.
    + rewrite IH by lia. replace (28 - i)%nat with (S (27 - i)) by lia.
      replace (28 - S i)%nat with (27 - i)%nat by lia.
      cbn [firstn write_from map List.length].
      replace (i + S (List.length (firstn (27 - i) rx)))%nat
        with (S i + List.length (firstn (27 - i) rx))%nat by lia.
      reflexivity.
    + replace i with 28%nat by lia. reflexivity.
Qed.

Lemma starts_with_app (p r : text) : starts_with p (p ++ r) = true.
Proof.
  induction p as [|c p IH]; [reflexivity|]. simpl. rewrite Ascii.eqb_refl. exact IH.
Qed.

Lemma handle_request (wire : Z -> Z -> list Z) (buf0 : list Z) (a0 : Z)
    (m0 : CRUMBSMessage) (line rest : text) :
  trim line = T "request="%string ++ rest ->
  let target := request_address (trim rest) in
  let got := firstn 28 (wire target 28) in
  handleSerialInput wire buf0 a0 m0 line =
  ([EvRequestFrom target 28; EvDelay 50] ++ map EvRead got
     ++ [EvDecode (write_from buf0 0 got) (List.length got)],
   Response target (decodeMessage (write_from buf0 0 got) (List.length got))).
Proof.
  intros Ht. cbn zeta. unfold handleSerialInput. rewrite Ht, starts_with_app.
  change (skipn 8 (T "request="%string ++ rest)) with rest.
  rewrite read_loop_spec by lia. reflexivity.
Qed.

(** ** Claims about the exchange *)

(** C3: [decodeMessage] fails for every length below 28 whatever the
    buffer holds; so on the [request=] path, when the bus delivers fewer
    than 28 bytes, the outcome is a failed decode (no message), and nothing
    is sent. *)
Theorem decode_truncated_fails (buf : list Z) (n : nat) (wire : Z -> Z -> list Z)
    (buf0 : list Z) (a0 : Z) (m0 : CRUMBSMessage) (line rest : text) :
  (n < 28)%nat ->
  trim line = T "request="%string ++ rest ->
  (List.length (wire (request_address (trim rest)) 28%Z) < 28)%nat ->
  decodeMessage buf n = None
  /\ snd (handleSerialInput wire buf0 a0 m0 line) = Response (request_address (trim rest)) None
  /\ forallb (fun e => negb (is_send e)) (fst (handleSerialInput wire buf0 a0 m0 line)) = true.
Proof.
  intros Hn Ht Hw.
  assert (Hd : forall b k, (k < 28)%nat -> decodeMessage b k = None).
  { intros b k Hk. unfold decodeMessage.
    replace (k <? CRUMBS_MESSAGE_SIZE)%nat with true
      by (symmetry; apply Nat.ltb_lt; exact Hk).
    reflexivity. }
  rewrite (handle_request wire buf0 a0 m0 line rest Ht). cbn zeta. cbn [fst snd].
  split; [apply Hd; exact Hn|]. split.
  - rewrite Hd; [reflexivity|]. rewrite length_firstn. lia.
  - rewrite !forallb_app. cbn [forallb is_send negb andb].
    rewrite andb_true_r.
    apply forallb_forall. intros e He. apply in_map_iff in He as (b & <- & _).
    reflexivity.
Qed.

(** C5: a [request=] line makes exactly one [Wire.requestFrom] for 28 bytes
    from the address, a 50 ms delay, then reads byte after byte, stopping
    at 28 bytes or when none is left, and hands [decodeMessage] the buffer
    and the number of bytes actually read. *)
Theorem request_exchange_trace (wire : Z -> Z -> list Z) (buf0 : list Z) (a0 : Z)
    (m0 : CRUMBSMessage) (line rest : text) :
  trim line = T "request="%string ++ rest ->
  List.length buf0 = 28%nat ->
  let target := request_address (trim rest) in
  let rx := wire target 28 in
  let k := Nat.min 28 (List.length rx) in
  fst (handleSerialInput wire buf0 a0 m0 line) =
  [EvRequestFrom target 28; EvDelay 50] ++ map EvRead (firstn 28 rx)
    ++ [EvDecode (firstn 28 rx ++ skipn k buf0) k].
Proof.
  intros Ht Hb. cbn zeta.
  rewrite (handle_request wire buf0 a0 m0 line rest Ht). cbn zeta. cbn [fst].
  rewrite length_firstn.
  rewrite write_from_spec by (rewrite length_firstn; lia).
  rewrite length_firstn. reflexivity.
Qed.

(** C6: on a [request=<address>] line the address is read as hexadecimal
    after 0x / 0X and as decimal otherwise (cast to [uint8_t]); the line
    builds no message to send and triggers one read request only;
    "request=0x08" and "request=8" both target address 8. *)
Theorem request_address_parsing (wire : Z -> Z -> list Z) (buf0 : list Z) (a0 : Z)
    (m0 : CRUMBSMessage) (line rest : text) :
  trim line = T "request="%string ++ rest ->
  let s := trim rest in
  let r := handleSerialInput wire buf0 a0 m0 line in
  (exists d, snd r = Response (if starts_with (T "0x"%string) s || starts_with (T "0X"%string) s
                               then u8 (strtol16 s) else u8 (atol s)) d)
  /\ forallb (fun e => negb (is_send e)) (fst r) = true
  /\ List.length (filter is_request (fst r)) = 1%nat
  /\ (exists d, snd (handleSerialInput wire buf0 a0 m0 (T "request=0x08"%string)) = Response 8 d)
  /\ (exists d, snd (handleSerialInput wire buf0 a0 m0 (T "request=8"%string)) = Response 8 d).
Proof.
  intros Ht. cbn zeta.
  assert (Hfilter : forall l : list Z, filter is_request (map EvRead l) = []).
  { induction l as [|b l IH]; [reflexivity|]. simpl. exact IH. }
  assert (Hsend : forall l : list Z, forallb (fun e => negb (is_send e)) (map EvRead l) = true).
  { induction l as [|b l IH]; [reflexivity|]. simpl. exact IH. }
  rewrite (handle_request wire buf0 a0 m0 line rest Ht). cbn zeta. cbn [fst snd].
  split; [eexists; reflexivity|]. split.
  { rewrite !forallb_app, Hsend. reflexivity. }
  split.
  { rewrite !filter_app, Hfilter. reflexivity. }
  split.
  - rewrite (handle_request wire buf0 a0 m0 (T "request=0x08"%string) (T "0x08"%string) eq_refl). cbn zeta.
    cbn [snd]. eexists. reflexivity.
  - rewrite (handle_request wire buf0 a0 m0 (T "request=8"%string) (T "8"%string) eq_refl). cbn zeta.
    cbn [snd]. eexists. reflexivity.
Qed.

Lemma roundtrip_decode_encode_witness :
  let m := mk_msg 1 2 3 (mk_floats6 1117126656 0 4286578688 1 2139095040 7) 255 in
  valid_message m = true
  /\ decodeMessage (encodeMessage m) 28 = Some m.
Proof.
  cbn zeta.
  assert (H : valid_message (mk_msg 1 2 3 (mk_floats6 1117126656 0 4286578688 1 2139095040 7) 255)
              = true) by reflexivity.
  split; [exact H|].
  exact (proj1 (roundtrip_decode_encode _ H)).
Defined.

Lemma decode_truncated_fails_witness :
  (3 < 28)%nat
  /\ trim (T " request=8 "%string) = T "request="%string ++ T "8"%string
  /\ (List.length ((fun _ _ => [1; 2; 3]) (request_address (trim (T "8"%string))) 28%Z) < 28)%nat
  /\ decodeMessage [1; 2; 3] 3 = None.
Proof.
  assert (H1 : (3 < 28)%nat) by lia.
  assert (H2 : trim (T " request=8 "%string) = T "request="%string ++ T "8"%string)
    by reflexivity.
  assert (H3 : (List.length ((fun _ _ => [1; 2; 3]) (request_address (trim (T "8"%string))) 28%Z)
                < 28)%nat) by (vm_compute; lia).
  split; [exact H1|]. split; [exact H2|]. split; [exact H3|].
  exact (proj1 (decode_truncated_fails [1; 2; 3] 3 (fun _ _ => [1; 2; 3]) (repeat 0 28) 0
                  (mk_msg 0 0 0 (mk_floats6 0 0 0 0 0 0) 0) _ _ H1 H2 H3)).
Defined.

Lemma request_exchange_trace_witness :
  trim (T "request=0x08"%string) = T "request="%string ++ T "0x08"%string
  /\ List.length (repeat 0 28) = 28%nat
  /\ fst (handleSerialInput (fun _ _ => [5; 6]) (repeat 0 28) 0
            (mk_msg 0 0 0 (mk_floats6 0 0 0 0 0 0) 0) (T "request=0x08"%string))
     = [EvRequestFrom 8 28; EvDelay 50] ++ map EvRead [5; 6]
       ++ [EvDecode ([5; 6] ++ repeat 0 26) 2].
Proof.
  assert (H1 : trim (T "request=0x08"%string) = T "request="%string ++ T "0x08"%string)
    by reflexivity.
  assert (H2 : List.length (repeat 0 28) = 28%nat) by reflexivity.
  split; [exact H1|]. split; [exact H2|].
  exact (request_exchange_trace (fun _ _ => [5; 6]) (repeat 0 28) 0
           (mk_msg 0 0 0 (mk_floats6 0 0 0 0 0 0) 0) _ _ H1 H2).
Defined.

Lemma request_address_parsing_witness :
  trim (T "request=0X1f"%string) = T "request="%string ++ T "0X1f"%string
  /\ exists d, snd (handleSerialInput (fun _ _ => []) [] 0
                     (mk_msg 0 0 0 (mk_floats6 0 0 0 0 0 0) 0) (T "request=0X1f"%string))
               = Response 31 d.
Proof.
  assert (H : trim (T "request=0X1f"%string) = T "request="%string ++ T "0X1f"%string)
    by reflexivity.
  split; [exact H|].
  exact (proj1 (request_address_parsing (fun _ _ => []) [] 0
                  (mk_msg 0 0 0 (mk_floats6 0 0 0 0 0 0) 0) _ _ H)).
Defined.

(** * Further properties of the master sketch *)

(** ** [String::trim] and its use in [handleSerialInput] *)

Lemma skip_spaces_suffix (s : text) : exists p, s = p ++ skip_spaces s.
Proof.
  induction s as [|c s IH]; [exists []; reflexivity|].
  simpl. destruct (is_space c).
  - destruct IH as [p Hp]. exists (c :: p). simpl. f_equal. exact Hp.
  - exists []. reflexivity.
Qed.

Lemma skip_spaces_head (s : text) :
  skip_spaces s = [] \/ exists c t, skip_spaces s = c :: t /\ is_space c = false.
Proof.
  induction s as [|c s IH]; [left; reflexivity|].
  simpl. destruct (is_space c) eqn:Hc; [exact IH|].
  right. exists c, s. split; [reflexivity|exact Hc].
Qed.

Lemma skip_spaces_fixed (c : ascii) (t : text) :
  is_space c = false -> skip_spaces (c :: t) = c :: t.
Proof. intros H. simpl. rewrite H. reflexivity. Qed.

Lemma skip_spaces_idem (s : text) : skip_spaces (skip_spaces s) = skip_spaces s.
Proof.
  destruct (skip_spaces_head s) as [E | (c & t & E & Hc)]; rewrite E;
    [reflexivity | apply skip_spaces_fixed; exact Hc].
Qed.

Lemma trim_idem (s : text) : trim (trim s) = trim s.
Proof.
  unfold trim at 2 3. set (u := skip_spaces s). set (v := skip_spaces (rev u)).
  assert (Hv : skip_spaces (rev v) = rev v).
  { destruct (skip_spaces_suffix (rev u)) as [p Hp]. fold v in Hp.
    assert (Hu : u = rev v ++ rev p)
      by (rewrite <- rev_app_distr, <- Hp, rev_involutive; reflexivity).
    destruct (rev v) as [|c t] eqn:Ev; [reflexivity|].
    destruct (skip_spaces_head s) as [E | (c' & t' & E & Hc)]; fold u in E;
      rewrite E in Hu; [discriminate|].
    simpl in Hu. injection Hu as -> _. apply skip_spaces_fixed. exact Hc. }
  unfold trim. rewrite Hv, rev_involutive.
  unfold v. rewrite skip_spaces_idem. reflexivity.
Qed.

(** X1: [handleSerialInput] trims the line first, so white space around a
    command never changes what is requested, parsed or sent. *)
Theorem handle_trimmed_line (wire : Z -> Z -> list Z) (buf0 : list Z) (a0 : Z)
    (m0 : CRUMBSMessage) (line : text) :
  handleSerialInput wire buf0 a0 m0 (trim line) = handleSerialInput wire buf0 a0 m0 line.
Proof. unfold handleSerialInput. rewrite trim_idem. reflexivity. Qed.

(** ** The send path of [handleSerialInput] *)

(** X2: a line that is not a [request=] command never reads from the bus;
    it sends exactly one message, the parsed one to the parsed address, when
    the trimmed line has at least three commas, and does nothing otherwise. *)
Theorem handle_send_path (wire : Z -> Z -> list Z) (buf0 : list Z) (a0 : Z)
    (m0 : CRUMBSMessage) (line : text) :
  starts_with (T "request="%string) (trim line) = false ->
  let r := parseSerialInput (trim line) a0 m0 in
  fst (handleSerialInput wire buf0 a0 m0 line)
  = if (3 <=? comma_count (trim line))%nat
    then [EvSend (parse_address r) (parse_message r)] else [].
Proof.
  intros Hs. cbn zeta. unfold handleSerialInput. rewrite Hs.
  pose proof (parse_ok_count (trim line) a0 m0) as Hok.
  destruct (parseSerialInput (trim line) a0 m0) as [[ok a] m].
  unfold parse_ok in Hok. cbn [fst snd] in Hok |- *. unfold parse_address, parse_message.
  cbn [fst snd]. rewrite Hok.
  destruct (Nat.leb_spec 3 (comma_count (trim line))) as [L|L].
  - replace (S (comma_count (trim line)) <? 4)%nat with false
      by (symmetry; apply Nat.ltb_ge; lia). reflexivity.
  - replace (S (comma_count (trim line)) <? 4)%nat with true
      by (symmetry; apply Nat.ltb_lt; lia). reflexivity.
Qed.

(** ** Edge behaviour of [parseSerialInput] *)

Lemma parse_address_hd_field (s : text) (a : Z) (m : CRUMBSMessage) :
  parse_address (parseSerialInput s a m) = u8 (toInt (hd [] (fields s))).
Proof.
  pose proof (parse_result_field s a m 0 ltac:(lia)) as H. cbn zeta in H.
  cbn [result_field] in H. rewrite H.
  unfold fields. destruct s as [|c s]; [reflexivity|].
  cbn [split_from]. destruct (Ascii.eqb c ","); [reflexivity|]. cbn [app].
  destruct (split_from [c] s) as [|v l] eqn:E.
  - pose proof (split_from_length s [c]) as HL. rewrite E in HL. discriminate.
  - reflexivity.
Qed.

(** X3: the [targetAddress] output is always overwritten with the first
    comma-delimited field cast to [uint8_t], also when the parse fails; the
    caller's previous value is never kept. *)
Theorem parse_address_first_field (s : text) (a : Z) (m : CRUMBSMessage) :
  parse_address (parseSerialInput s a m) = u8 (toInt (hd [] (fields s))).
Proof. exact (parse_address_hd_field s a m). Qed.



(** ** The request path with a full response *)

(** Decoding the encoding of an in-range message gives it back. *)
Lemma decode_encode (m : CRUMBSMessage) :
  valid_message m = true -> decodeMessage (encodeMessage m) 28 = Some m.
Proof.
  intros Hv.
  destruct m as [s t c [f0 f1 f2 f3 f4 f5] e].
  unfold valid_message, data_list in Hv.
  cbn [forallb data sliceID typeID commandType errorFlags d0 d1 d2 d3 d4 d5] in Hv.
  rewrite andb_true_r in Hv. split_bools.
  repeat match goal with
  | H : is_u32 ?f = true |- _ =>
      apply is_u32_range in H;
      destruct (le_bytes_4 f H) as (?b0 & ?b1 & ?b2 & ?b3 & ?E & ?V); clear H
  end.
  unfold encodeMessage. cbn [data_list flat_map data sliceID typeID commandType errorFlags d0 d1 d2 d3 d4 d5 app].
  repeat match goal with E : le_bytes 4 _ = _ |- _ => rewrite E; clear E end.
  unfold decodeMessage, decode_float. cbn -[le_value].
  congruence.
Qed.


Lemma handle_request_full (wire : Z -> Z -> list Z) (buf0 : list Z) (a0 : Z)
    (m0 : CRUMBSMessage) (line rest : text) :
  trim line = T "request="%string ++ rest ->
  List.length buf0 = 28%nat ->
  (28 <= List.length (wire (request_address (trim rest)) 28%Z))%nat ->
  snd (handleSerialInput wire buf0 a0 m0 line)
  = Response (request_address (trim rest))
      (decodeMessage (firstn 28 (wire (request_address (trim rest)) 28%Z)) 28).
Proof.
  intros Ht Hb Hw. rewrite (handle_request wire buf0 a0 m0 line rest Ht). cbn zeta.
  cbn [snd].
  assert (HL : List.length (firstn 28 (wire (request_address (trim rest)) 28%Z)) = 28%nat)
    by (rewrite length_firstn; lia).
  rewrite write_from_spec by lia. rewrite HL.
  rewrite (skipn_all2 buf0) by lia. rewrite app_nil_r. reflexivity.
Qed.


(** X6: a peripheral that answers a [request=] line with the 28-byte
    encoding of a message (whatever follows it) has that same message
    decoded by the master. *)
Theorem request_echo_roundtrip (wire : Z -> Z -> list Z) (buf0 : list Z) (a0 : Z)
    (m0 m : CRUMBSMessage) (line rest : text) (extra_bytes : list Z) :
  trim line = T "request="%string ++ rest ->
  List.length buf0 = 28%nat ->
  valid_message m = true ->
  wire (request_address (trim rest)) 28%Z = encodeMessage m ++ extra_bytes ->
  snd (handleSerialInput wire buf0 a0 m0 line)
  = Response (request_address (trim rest)) (Some m).
Proof.
  intros Ht Hb Hv Hw.
  assert (HL := encode_length m). unfold CRUMBS_MESSAGE_SIZE in HL.
  rewrite (handle_request_full wire buf0 a0 m0 line rest Ht Hb)
    by (rewrite Hw, length_app; lia).
  rewrite Hw, firstn_app, HL, Nat.sub_diag, firstn_O, app_nil_r.
  rewrite firstn_all2 by lia.
  rewrite (decode_encode m Hv). reflexivity.
Qed.

Lemma handle_send_path_witness :
  starts_with (T "request="%string) (trim (T " 8,1,1,75.0 "%string)) = false
  /\ fst (handleSerialInput (fun _ _ => []) [] 0 (mk_msg 0 0 0 (mk_floats6 0 0 0 0 0 0) 0)
         (T " 8,1,1,75.0 "%string))
     = [EvSend 8 (mk_msg 0 1 1 (mk_floats6 1117126656 0 0 0 0 0) 0)].
Proof.
  assert (H : starts_with (T "request="%string) (trim (T " 8,1,1,75.0 "%string)) = false)
    by reflexivity.
  split; [exact H|].
  rewrite (handle_send_path (fun _ _ => []) [] 0 (mk_msg 0 0 0 (mk_floats6 0 0 0 0 0 0) 0) _ H).
  vm_compute. reflexivity.
Defined.


Lemma request_echo_roundtrip_witness :
  let m := mk_msg 3 1 1 (mk_floats6 1117126656 1065353216 0 1115815936 0 0) 0 in
  valid_message m = true
  /\ snd (handleSerialInput (fun _ _ => encodeMessage m ++ [9]) (repeat 0 28) 0
          (mk_msg 0 0 0 (mk_floats6 0 0 0 0 0 0) 0) (T "request=0x08"%string))
     = Response 8 (Some m).
Proof.
  cbn zeta.
  set (m := mk_msg 3 1 1 (mk_floats6 1117126656 1065353216 0 1115815936 0 0) 0).
  assert (H1 : trim (T "request=0x08"%string) = T "request="%string ++ T "0x08"%string)
    by reflexivity.
  assert (H2 : List.length (repeat 0 28) = 28%nat) by reflexivity.
  assert (H3 : valid_message m = true) by reflexivity.
  assert (H4 : (fun _ _ => encodeMessage m ++ [9]) (request_address (trim (T "0x08"%string))) 28%Z
               = encodeMessage m ++ [9]) by reflexivity.
  split; [exact H3|].
  exact (request_echo_roundtrip (fun _ _ => encodeMessage m ++ [9]) (repeat 0 28) 0
           (mk_msg 0 0 0 (mk_floats6 0 0 0 0 0 0) 0) m _ _ [9] H1 H2 H3 H4).
Defined.
